(** * SfeI2C: the I2C transport of the u-blox GNSS driver (STM32 HAL port)

    A shallow embedding of [src/sfe_bus.cpp].  The class [SfeI2C] keeps a
    pointer to the HAL's I2C handle and the 8-bit device address, and its
    methods forward to four blocking calls of the STM32 HAL.  The HAL is
    outside the class: a method is embedded as a small program that either
    returns or issues one HAL call and continues on the HAL's reply, and a
    program is run against an arbitrary bus service, recording the calls it
    makes. *)

From Stdlib Require Import ZArith List Bool Lia.
Import ListNotations.

Open Scope Z_scope.

Module SparkFun_UBLOX_GNSS.

(** ** Fixed-width unsigned integers *)

(** Conversion to [uint8_t]: reduction modulo 2^8. *)
Definition uint8 (z : Z) : Z := z mod 256.

(** Conversion to [uint16_t]: reduction modulo 2^16. *)
Definition uint16 (z : Z) : Z := z mod 65536.

(** ** The HAL's status type *)

(** Modelled from the spec: the header that declares [HAL_StatusTypeDef] is
    not under src/.  The spec describes the value returned by the four bus
    calls as one "completed" outcome against every other outcome (timeout,
    NACK, arbitration loss, bus fault); these are the enumerators of the
    STM32 HAL, [HAL_OK] being the completed one. *)
Inductive HAL_StatusTypeDef : Type :=
| HAL_OK
| HAL_ERROR
| HAL_BUSY
| HAL_TIMEOUT.

(** The integer value of an enumerator, as seen when the status is stored in
    a [uint8_t] or compared with [!=]. *)
Definition status_value (s : HAL_StatusTypeDef) : Z :=
  match s with
  | HAL_OK => 0x00
  | HAL_ERROR => 0x01
  | HAL_BUSY => 0x02
  | HAL_TIMEOUT => 0x03
  end.

Section Transport.

(** [I2C_HandleTypeDef]: the HAL's bus controller object.  Only its identity
    matters here; a value of [Handle] is a reference to one such object, and
    a pointer that may be null is an [option Handle]. *)
Context {Handle : Type}.

(** The two HAL macros used by the class; their values are the platform's. *)
Variable I2C_MEMADD_SIZE_8BIT : Z.
Variable HAL_MAX_DELAY : Z.

(** *** Calls into the HAL *)

(** One constructor per HAL function called by the class, with the
    arguments in the order of the C prototype.  A buffer argument is the
    content of the buffer when the call is made ([HAL_I2C_Mem_Read] is
    handed an uninitialised local array, so it carries none). *)
Inductive HAL_call : Type :=
| HAL_I2C_IsDeviceReady
    (hi2c : option Handle) (DevAddress Trials Timeout : Z)
| HAL_I2C_Mem_Read
    (hi2c : option Handle) (DevAddress MemAddress MemAddSize Size Timeout : Z)
| HAL_I2C_Master_Transmit
    (hi2c : option Handle) (DevAddress : Z) (pData : list Z) (Size Timeout : Z)
| HAL_I2C_Master_Receive
    (hi2c : option Handle) (DevAddress : Z) (pData : list Z) (Size Timeout : Z).

(** What a HAL call gives back: its status and the content of the buffer it
    was handed, as the call left it. *)
Record HAL_reply : Type := mkReply {
  status : HAL_StatusTypeDef;
  pData_out : list Z
}.

(** *** Programs over the HAL *)

Inductive Prog (A : Type) : Type :=
| Ret (a : A)
| Call (c : HAL_call) (k : HAL_reply -> Prog A).

Arguments Ret {A} a.
Arguments Call {A} c k.

Fixpoint bind {A B : Type} (p : Prog A) (f : A -> Prog B) : Prog B :=
  match p with
  | Ret a => f a
  | Call c k => Call c (fun r => bind (k r) f)
  end.

Definition call (c : HAL_call) : Prog HAL_reply := Call c Ret.

Notation "x <- p ;; q" := (bind p (fun x => q))
  (at level 61, p at next level, right associativity).

(** *** The class *)

Record SfeI2C : Type := mkSfeI2C {
  _i2cPort : option Handle;
  _address : Z
}.

(** [!p] on a pointer. *)
Definition is_null (p : option Handle) : bool :=
  match p with
  | None => true
  | Some _ => false
  end.

(** [ret != HAL_OK] where [ret] is the [uint8_t] the status was stored in. *)
Definition not_HAL_OK (r : HAL_reply) : bool :=
  let ret := uint8 (status_value (status r)) in
  negb (ret =? status_value HAL_OK).

(** [SfeI2C::SfeI2C(void) : _i2cPort{nullptr}, _address{0}] *)
Definition SfeI2C_new : SfeI2C :=
  {| _i2cPort := None; _address := 0 |}.

(** [bool SfeI2C::init(I2C_HandleTypeDef &i2cHandle, uint8_t address)].
    The result is the returned flag and the object after the call;
    [address] is converted to the parameter's type on entry. *)
Definition init (self : SfeI2C) (i2cHandle : Handle) (address : Z)
  : bool * SfeI2C :=
  let address := uint8 address in
  let self :=
    if is_null (_i2cPort self)
    then {| _i2cPort := Some i2cHandle; _address := _address self |}
    else self in
  let self := {| _i2cPort := _i2cPort self; _address := address |} in
  (true, self).

(** [bool SfeI2C::ping()] *)
Definition ping (self : SfeI2C) : Prog (bool * SfeI2C) :=
  if is_null (_i2cPort self) then Ret (false, self)
  else
    r <- call (HAL_I2C_IsDeviceReady (_i2cPort self) (_address self) 3 5) ;;
    if not_HAL_OK r then Ret (false, self)
    else Ret (true, self).

(** [uint16_t SfeI2C::available()].  The early return is [return false],
    converted to the [uint16_t] result type. *)
Definition available (self : SfeI2C) : Prog (Z * SfeI2C) :=
  if is_null (_i2cPort self) then Ret (uint16 (Z.b2z false), self)
  else
    let bytesAvailable := 0 in
    r <- call (HAL_I2C_Mem_Read (_i2cPort self) (_address self) 0xFD
                 I2C_MEMADD_SIZE_8BIT 2 HAL_MAX_DELAY) ;;
    let data := pData_out r in
    if not_HAL_OK r then Ret (0, self)
    else
      let msb := uint8 (nth 0 data 0) in
      let lsb := uint8 (nth 1 data 0) in
      let bytesAvailable := uint16 (Z.lor (Z.shiftl (uint16 msb) 8) lsb) in
      Ret (bytesAvailable, self).

(** [uint8_t SfeI2C::writeBytes(uint8_t *dataToWrite, uint8_t length)] *)
Definition writeBytes (self : SfeI2C) (dataToWrite : list Z) (length : Z)
  : Prog (Z * SfeI2C) :=
  let length := uint8 length in
  if length =? 0 then Ret (0, self)
  else
    r <- call (HAL_I2C_Master_Transmit (_i2cPort self) (_address self)
                 dataToWrite length HAL_MAX_DELAY) ;;
    if not_HAL_OK r then Ret (0, self)
    else Ret (length, self).

(** [uint8_t SfeI2C::readBytes(uint8_t *data, uint8_t length)].  The result
    also carries the content of [data] after the call. *)
Definition readBytes (self : SfeI2C) (data : list Z) (length : Z)
  : Prog (Z * list Z * SfeI2C) :=
  let length := uint8 length in
  if length =? 0 then Ret (0, data, self)
  else
    r <- call (HAL_I2C_Master_Receive (_i2cPort self) (_address self)
                 data length HAL_MAX_DELAY) ;;
    let data := pData_out r in
    if not_HAL_OK r then Ret (0, data, self)
    else Ret (length, data, self).

(** *** Sequences of method calls on one instance *)

Inductive Op : Type :=
| OpInit (i2cHandle : Handle) (address : Z)
| OpPing
| OpAvailable
| OpWriteBytes (dataToWrite : list Z) (length : Z)
| OpReadBytes (data : list Z) (length : Z).

(** The transfer operations are all of them but [init]. *)
Definition is_transfer (o : Op) : bool :=
  match o with
  | OpInit _ _ => false
  | _ => true
  end.

(** One method call; only the object after the call is kept. *)
Definition step (o : Op) (self : SfeI2C) : Prog SfeI2C :=
  match o with
  | OpInit h a => Ret (snd (init self h a))
  | OpPing => r <- ping self ;; Ret (snd r)
  | OpAvailable => r <- available self ;; Ret (snd r)
  | OpWriteBytes d n => r <- writeBytes self d n ;; Ret (snd r)
  | OpReadBytes d n => r <- readBytes self d n ;; Ret (snd r)
  end.

Fixpoint steps (os : list Op) (self : SfeI2C) : Prog SfeI2C :=
  match os with
  | [] => Ret self
  | o :: os' => s <- step o self ;; steps os' s
  end.

(** *** What a sequence of method calls asks of the bus

    The projections and functions below are used to state properties of
    runs; each is read off the method bodies above. *)

(** The handle pointer a HAL call was made on. *)
Definition call_handle (c : HAL_call) : option Handle :=
  match c with
  | HAL_I2C_IsDeviceReady h _ _ _ => h
  | HAL_I2C_Mem_Read h _ _ _ _ _ => h
  | HAL_I2C_Master_Transmit h _ _ _ _ => h
  | HAL_I2C_Master_Receive h _ _ _ _ => h
  end.

(** The device address a HAL call was made to. *)
Definition call_address (c : HAL_call) : Z :=
  match c with
  | HAL_I2C_IsDeviceReady _ a _ _ => a
  | HAL_I2C_Mem_Read _ a _ _ _ _ => a
  | HAL_I2C_Master_Transmit _ a _ _ _ => a
  | HAL_I2C_Master_Receive _ a _ _ _ => a
  end.

(** Calls that move payload bytes: the ones [writeBytes] and [readBytes]
    make. *)
Definition is_payload_call (c : HAL_call) : bool :=
  match c with
  | HAL_I2C_Master_Transmit _ _ _ _ _ => true
  | HAL_I2C_Master_Receive _ _ _ _ _ => true
  | _ => false
  end.

(** [ping] and [available], the two methods that test [_i2cPort]. *)
Definition is_query (o : Op) : bool :=
  match o with
  | OpPing => true
  | OpAvailable => true
  | _ => false
  end.

(** The handle of the first [init] of a sequence, if it has one. *)
Fixpoint first_init_handle (os : list Op) : option Handle :=
  match os with
  | [] => None
  | OpInit h _ :: _ => Some h
  | _ :: os' => first_init_handle os'
  end.

(** The address of the last [init] of a sequence, as a [uint8_t], or [a0]
    if it has none. *)
Fixpoint last_init_address (os : list Op) (a0 : Z) : Z :=
  match os with
  | [] => a0
  | OpInit _ a :: os' => last_init_address os' (uint8 a)
  | _ :: os' => last_init_address os' a0
  end.

(** The object one method call leaves. *)
Definition after (o : Op) (self : SfeI2C) : SfeI2C :=
  match o with
  | OpInit h a => snd (init self h a)
  | _ => self
  end.

(** The HAL calls one method call makes on object [self]: none when its
    guard returns early, a single one otherwise. *)
Definition issued (o : Op) (self : SfeI2C) : list HAL_call :=
  match o with
  | OpInit _ _ => []
  | OpPing =>
      if is_null (_i2cPort self) then []
      else [HAL_I2C_IsDeviceReady (_i2cPort self) (_address self) 3 5]
  | OpAvailable =>
      if is_null (_i2cPort self) then []
      else [HAL_I2C_Mem_Read (_i2cPort self) (_address self) 0xFD
              I2C_MEMADD_SIZE_8BIT 2 HAL_MAX_DELAY]
  | OpWriteBytes d n =>
      if uint8 n =? 0 then []
      else [HAL_I2C_Master_Transmit (_i2cPort self) (_address self) d
              (uint8 n) HAL_MAX_DELAY]
  | OpReadBytes d n =>
      if uint8 n =? 0 then []
      else [HAL_I2C_Master_Receive (_i2cPort self) (_address self) d
              (uint8 n) HAL_MAX_DELAY]
  end.

(** The HAL calls of a whole sequence, in order. *)
Fixpoint trace (os : list Op) (self : SfeI2C) : list HAL_call :=
  match os with
  | [] => []
  | o :: os' => issued o self ++ trace os' (after o self)
  end.

(** *** Two simple bus services

    [bus_fixed s d] answers every call with status [s] and buffer content
    [d], and counts the calls it has served in its state. *)
Definition bus_fixed (s : HAL_StatusTypeDef) (d : list Z)
  : HAL_call -> nat -> HAL_reply * nat :=
  fun _ served => ({| status := s; pData_out := d |}, S served).

(** [bus_echo s] answers with status [s] and leaves the buffer as it was
    handed over (an empty one for [HAL_I2C_IsDeviceReady] and
    [HAL_I2C_Mem_Read]). *)
Definition bus_echo (s : HAL_StatusTypeDef)
  : HAL_call -> nat -> HAL_reply * nat :=
  fun c served =>
    let d :=
      match c with
      | HAL_I2C_Master_Transmit _ _ d _ _ => d
      | HAL_I2C_Master_Receive _ _ d _ _ => d
      | _ => []
      end in
    ({| status := s; pData_out := d |}, S served).

(** *** Running a program against a bus service *)

Section Run.

(** A bus service: its own state, and how it answers a call. *)
Context {BusState : Type}.
Variable hal : HAL_call -> BusState -> HAL_reply * BusState.

(** The outcome of a run: the program's result, the bus state at the end
    and the calls made, in order. *)
Fixpoint run {A : Type} (p : Prog A) (st : BusState)
  : A * BusState * list HAL_call :=
  match p with
  | Ret a => (a, st, [])
  | Call c k =>
      let '(r, st1) := hal c st in
      let '(a, st2, tr) := run (k r) st1 in
      (a, st2, c :: tr)
  end.

Definition result {A : Type} (p : Prog A) (st : BusState) : A :=
  fst (fst (run p st)).

Definition bus_after {A : Type} (p : Prog A) (st : BusState) : BusState :=
  snd (fst (run p st)).

Definition calls {A : Type} (p : Prog A) (st : BusState) : list HAL_call :=
  snd (run p st).

(** The status the bus service gives to call [c] in state [st]. *)
Definition reported (c : HAL_call) (st : BusState) : HAL_StatusTypeDef :=
  status (fst (hal c st)).

(** The buffer content the bus service leaves after call [c]. *)
Definition delivered (c : HAL_call) (st : BusState) : list Z :=
  pData_out (fst (hal c st)).

(** ** Properties *)

(** *** Arithmetic of the fixed-width types *)

Lemma uint8_small (z : Z) : 0 <= z < 256 -> uint8 z = z.
Proof. intros Hz. unfold uint8. apply Z.mod_small. exact Hz. Qed.

Lemma uint16_small (z : Z) : 0 <= z < 65536 -> uint16 z = z.
Proof. intros Hz. unfold uint16. apply Z.mod_small. exact Hz. Qed.

(** A byte has no bit in common with a value shifted left by eight. *)
Lemma land_shiftl8_byte (hi lo : Z) :
  0 <= lo < 256 -> Z.land (Z.shiftl hi 8) lo = 0.
Proof.
  intros Hlo. apply Z.bits_inj'. intros n Hn.
  rewrite Z.land_spec, Z.bits_0.
  destruct (Z.ltb_spec n 8) as [Hlt | Hge].
  - rewrite Z.shiftl_spec_low by exact Hlt. reflexivity.
  - replace lo with (lo mod 2 ^ 8) by (apply Z.mod_small; exact Hlo).
    rewrite Z.mod_pow2_bits_high by lia. apply andb_false_r.
Qed.

(** [(uint16_t)msb << 8 | lsb] is the big-endian value of the two bytes. *)
Lemma big_endian_pair (msb lsb : Z) :
  0 <= msb < 256 -> 0 <= lsb < 256 ->
  uint16 (Z.lor (Z.shiftl (uint16 (uint8 msb)) 8) (uint8 lsb))
  = msb * 256 + lsb.
Proof.
  intros Hm Hl.
  rewrite (uint8_small msb Hm), (uint8_small lsb Hl).
  rewrite (uint16_small msb) by lia.
  assert (Hlor : Z.lor (Z.shiftl msb 8) lsb = Z.shiftl msb 8 + lsb).
  { pose proof (Z.add_lor_land (Z.shiftl msb 8) lsb) as Hadd.
    rewrite land_shiftl8_byte in Hadd by exact Hl. lia. }
  rewrite Hlor, Z.shiftl_mul_pow2 by lia.
  change (2 ^ 8) with 256. apply uint16_small. lia.
Qed.

(** *** The status test *)

Lemma not_HAL_OK_status (r : HAL_reply) :
  not_HAL_OK r = match status r with HAL_OK => false | _ => true end.
Proof. destruct r as [[] d]; reflexivity. Qed.

Lemma not_HAL_OK_false (r : HAL_reply) :
  status r = HAL_OK -> not_HAL_OK r = false.
Proof. intros H. rewrite not_HAL_OK_status, H. reflexivity. Qed.

Lemma not_HAL_OK_true (r : HAL_reply) :
  status r <> HAL_OK -> not_HAL_OK r = true.
Proof.
  intros H. rewrite not_HAL_OK_status.
  destruct (status r); [contradiction H; reflexivity | reflexivity ..].
Qed.

(** *** Runs *)

Lemma run_bind {A B : Type} (p : Prog A) (f : A -> Prog B) (st : BusState) :
  run (bind p f) st =
  let '(a, st1, tr1) := run p st in
  let '(b, st2, tr2) := run (f a) st1 in
  (b, st2, tr1 ++ tr2).
Proof.
  revert st. induction p as [a | c k IH]; intros st; simpl.
  - destruct (run (f a) st) as [[b st2] tr2]. reflexivity.
  - destruct (hal c st) as [r st1]. rewrite IH.
    destruct (run (k r) st1) as [[a st2] tr1].
    destruct (run (f a) st2) as [[b st3] tr2]. reflexivity.
Qed.

(** A program that makes one call and then returns. *)
Lemma run_call_ret {A : Type} (c : HAL_call) (f : HAL_reply -> A)
      (st : BusState) :
  run (Call c (fun r => Ret (f r))) st =
  (f (fst (hal c st)), snd (hal c st), [c]).
Proof. simpl. destruct (hal c st) as [r st1]. reflexivity. Qed.

(** *** What a run of each method looks like *)

Lemma run_ping_null (self : SfeI2C) (st : BusState) :
  _i2cPort self = None ->
  run (ping self) st = ((false, self), st, []).
Proof. intros Hp. unfold ping. rewrite Hp. reflexivity. Qed.

Lemma run_ping_bound (self : SfeI2C) (h : Handle) (st : BusState) :
  _i2cPort self = Some h ->
  let c := HAL_I2C_IsDeviceReady (Some h) (_address self) 3 5 in
  run (ping self) st =
  ((negb (not_HAL_OK (fst (hal c st))), self), snd (hal c st), [c]).
Proof.
  intros Hp c. unfold ping. rewrite Hp. simpl. fold c.
  destruct (hal c st) as [r st1]. simpl.
  destruct (not_HAL_OK r); reflexivity.
Qed.

Lemma run_available_null (self : SfeI2C) (st : BusState) :
  _i2cPort self = None ->
  run (available self) st = ((0, self), st, []).
Proof. intros Hp. unfold available. rewrite Hp. reflexivity. Qed.

Lemma run_available_bound (self : SfeI2C) (h : Handle) (st : BusState) :
  _i2cPort self = Some h ->
  let c := HAL_I2C_Mem_Read (Some h) (_address self) 0xFD
             I2C_MEMADD_SIZE_8BIT 2 HAL_MAX_DELAY in
  let r := fst (hal c st) in
  let msb := uint8 (nth 0 (pData_out r) 0) in
  let lsb := uint8 (nth 1 (pData_out r) 0) in
  run (available self) st =
  ((if not_HAL_OK r then 0
    else uint16 (Z.lor (Z.shiftl (uint16 msb) 8) lsb), self),
   snd (hal c st), [c]).
Proof.
  intros Hp c r msb lsb. unfold available. rewrite Hp. simpl. fold c.
  subst r msb lsb. destruct (hal c st) as [r st1]. simpl.
  destruct (not_HAL_OK r); reflexivity.
Qed.

Lemma run_writeBytes_zero (self : SfeI2C) (d : list Z) (st : BusState) :
  run (writeBytes self d 0) st = ((0, self), st, []).
Proof. reflexivity. Qed.

Lemma run_writeBytes_pos (self : SfeI2C) (d : list Z) (L : Z)
      (st : BusState) :
  1 <= L <= 255 ->
  let c := HAL_I2C_Master_Transmit (_i2cPort self) (_address self) d L
             HAL_MAX_DELAY in
  run (writeBytes self d L) st =
  ((if not_HAL_OK (fst (hal c st)) then 0 else L, self),
   snd (hal c st), [c]).
Proof.
  intros HL c. unfold writeBytes. rewrite uint8_small by lia.
  destruct (Z.eqb_spec L 0) as [H0 | _]; [lia |].
  simpl. fold c. destruct (hal c st) as [r st1]. simpl.
  destruct (not_HAL_OK r); reflexivity.
Qed.

Lemma run_readBytes_zero (self : SfeI2C) (d : list Z) (st : BusState) :
  run (readBytes self d 0) st = ((0, d, self), st, []).
Proof. reflexivity. Qed.

Lemma run_readBytes_pos (self : SfeI2C) (d : list Z) (L : Z)
      (st : BusState) :
  1 <= L <= 255 ->
  let c := HAL_I2C_Master_Receive (_i2cPort self) (_address self) d L
             HAL_MAX_DELAY in
  let r := fst (hal c st) in
  run (readBytes self d L) st =
  ((if not_HAL_OK r then 0 else L, pData_out r, self),
   snd (hal c st), [c]).
Proof.
  intros HL c r. unfold readBytes. rewrite uint8_small by lia.
  destruct (Z.eqb_spec L 0) as [H0 | _]; [lia |].
  simpl. fold c. subst r. destruct (hal c st) as [r st1]. simpl.
  destruct (not_HAL_OK r); reflexivity.
Qed.

(** The four transfer methods give the object back as they found it. *)
Lemma ping_keeps_object (self : SfeI2C) (st : BusState) :
  snd (result (ping self) st) = self.
Proof.
  unfold result. destruct (_i2cPort self) as [h |] eqn:Hp.
  - rewrite (run_ping_bound self h st Hp). reflexivity.
  - rewrite (run_ping_null self st Hp). reflexivity.
Qed.

Lemma available_keeps_object (self : SfeI2C) (st : BusState) :
  snd (result (available self) st) = self.
Proof.
  unfold result. destruct (_i2cPort self) as [h |] eqn:Hp.
  - rewrite (run_available_bound self h st Hp). reflexivity.
  - rewrite (run_available_null self st Hp). reflexivity.
Qed.

Lemma writeBytes_keeps_object (self : SfeI2C) (d : list Z) (n : Z)
      (st : BusState) :
  snd (result (writeBytes self d n) st) = self.
Proof.
  unfold result, writeBytes.
  destruct (uint8 n =? 0); [reflexivity |]. simpl.
  destruct (hal _ st) as [r st1]. simpl.
  destruct (not_HAL_OK r); reflexivity.
Qed.

Lemma readBytes_keeps_object (self : SfeI2C) (d : list Z) (n : Z)
      (st : BusState) :
  snd (result (readBytes self d n) st) = self.
Proof.
  unfold result, readBytes.
  destruct (uint8 n =? 0); [reflexivity |]. simpl.
  destruct (hal _ st) as [r st1]. simpl.
  destruct (not_HAL_OK r); reflexivity.
Qed.

(** [init] never touches a handle that is already stored. *)
Lemma init_keeps_handle (self : SfeI2C) (h h' : Handle) (a : Z) :
  _i2cPort self = Some h -> _i2cPort (snd (init self h' a)) = Some h.
Proof. intros Hp. unfold init. rewrite Hp. simpl. exact Hp. Qed.

Lemma init_stores_first_handle (self : SfeI2C) (h : Handle) (a : Z) :
  _i2cPort self = None -> _i2cPort (snd (init self h a)) = Some h.
Proof. intros Hp. unfold init. rewrite Hp. reflexivity. Qed.

Lemma init_stores_address (self : SfeI2C) (h : Handle) (a : Z) :
  _address (snd (init self h a)) = uint8 a.
Proof. unfold init. destruct (is_null (_i2cPort self)); reflexivity. Qed.

(** The object after one step, whatever the bus answers. *)
Lemma step_result (o : Op) (self : SfeI2C) (st : BusState) :
  result (step o self) st =
  match o with
  | OpInit h a => snd (init self h a)
  | _ => self
  end.
Proof.
  destruct o as [h a | | | d n | d n]; unfold step.
  - reflexivity.
  - unfold result. rewrite run_bind.
    pose proof (ping_keeps_object self st) as Hk. unfold result in Hk.
    destruct (run (ping self) st) as [[x st1] tr1]. simpl in *. exact Hk.
  - unfold result. rewrite run_bind.
    pose proof (available_keeps_object self st) as Hk. unfold result in Hk.
    destruct (run (available self) st) as [[x st1] tr1]. simpl in *. exact Hk.
  - unfold result. rewrite run_bind.
    pose proof (writeBytes_keeps_object self d n st) as Hk.
    unfold result in Hk.
    destruct (run (writeBytes self d n) st) as [[x st1] tr1].
    simpl in *. exact Hk.
  - unfold result. rewrite run_bind.
    pose proof (readBytes_keeps_object self d n st) as Hk.
    unfold result in Hk.
    destruct (run (readBytes self d n) st) as [[x st1] tr1].
    simpl in *. exact Hk.
Qed.

Lemma steps_cons (o : Op) (os : list Op) (self : SfeI2C) (st : BusState) :
  result (steps (o :: os) self) st =
  result (steps os (result (step o self) st)) (bus_after (step o self) st).
Proof.
  unfold result, bus_after. simpl steps. rewrite run_bind.
  destruct (run (step o self) st) as [[s1 st1] tr1]. simpl.
  destruct (run (steps os s1) st1) as [[s2 st2] tr2]. reflexivity.
Qed.

(** *** Sequences of method calls *)

Lemma step_after (o : Op) (self : SfeI2C) (st : BusState) :
  result (step o self) st = after o self.
Proof. apply step_result. Qed.

(** The calls of one step do not depend on what the bus answers. *)
Lemma step_calls (o : Op) (self : SfeI2C) (st : BusState) :
  calls (step o self) st = issued o self.
Proof.
  unfold calls.
  destruct o as [h a | | | d n | d n]; unfold step, issued;
    try rewrite run_bind.
  - reflexivity.
  - unfold ping. destruct (is_null (_i2cPort self)); [reflexivity |].
    simpl. destruct (hal _ st) as [r st1]. simpl.
    destruct (not_HAL_OK r); reflexivity.
  - unfold available. destruct (is_null (_i2cPort self)); [reflexivity |].
    simpl. destruct (hal _ st) as [r st1]. simpl.
    destruct (not_HAL_OK r); reflexivity.
  - unfold writeBytes. destruct (uint8 n =? 0); [reflexivity |].
    simpl. destruct (hal _ st) as [r st1]. simpl.
    destruct (not_HAL_OK r); reflexivity.
  - unfold readBytes. destruct (uint8 n =? 0); [reflexivity |].
    simpl. destruct (hal _ st) as [r st1]. simpl.
    destruct (not_HAL_OK r); reflexivity.
Qed.

Lemma steps_calls_cons (o : Op) (os : list Op) (self : SfeI2C)
      (st : BusState) :
  calls (steps (o :: os) self) st =
  calls (step o self) st ++
  calls (steps os (result (step o self) st)) (bus_after (step o self) st).
Proof.
  unfold calls, result, bus_after. simpl steps. rewrite run_bind.
  destruct (run (step o self) st) as [[s1 st1] tr1]. simpl.
  destruct (run (steps os s1) st1) as [[s2 st2] tr2]. reflexivity.
Qed.

Lemma steps_bus_cons (o : Op) (os : list Op) (self : SfeI2C)
      (st : BusState) :
  bus_after (steps (o :: os) self) st =
  bus_after (steps os (result (step o self) st)) (bus_after (step o self) st).
Proof.
  unfold result, bus_after. simpl steps. rewrite run_bind.
  destruct (run (step o self) st) as [[s1 st1] tr1]. simpl.
  destruct (run (steps os s1) st1) as [[s2 st2] tr2]. reflexivity.
Qed.

(** The calls of a sequence are its [trace], whatever the bus answers. *)
Lemma steps_calls (os : list Op) (self : SfeI2C) (st : BusState) :
  calls (steps os self) st = trace os self.
Proof.
  revert self st. induction os as [| o os IH]; intros self st.
  - reflexivity.
  - rewrite steps_calls_cons, step_calls, step_after, IH. reflexivity.
Qed.

Lemma issued_at_most_one (o : Op) (self : SfeI2C) :
  (length (issued o self) <= (if is_transfer o then 1 else 0))%nat.
Proof.
  destruct o as [h a | | | d n | d n]; simpl.
  - apply Nat.le_refl.
  - destruct (is_null (_i2cPort self)); simpl; auto.
  - destruct (is_null (_i2cPort self)); simpl; auto.
  - destruct (uint8 n =? 0); simpl; auto.
  - destruct (uint8 n =? 0); simpl; auto.
Qed.

Lemma issued_handle (o : Op) (self : SfeI2C) :
  Forall (fun c => call_handle c = _i2cPort self) (issued o self).
Proof.
  destruct o as [h a | | | d n | d n]; simpl.
  - constructor.
  - destruct (is_null (_i2cPort self)); repeat constructor.
  - destruct (is_null (_i2cPort self)); repeat constructor.
  - destruct (uint8 n =? 0); repeat constructor.
  - destruct (uint8 n =? 0); repeat constructor.
Qed.

Lemma issued_address (o : Op) (self : SfeI2C) :
  Forall (fun c => call_address c = _address self) (issued o self).
Proof.
  destruct o as [h a | | | d n | d n]; simpl.
  - constructor.
  - destruct (is_null (_i2cPort self)); repeat constructor.
  - destruct (is_null (_i2cPort self)); repeat constructor.
  - destruct (uint8 n =? 0); repeat constructor.
  - destruct (uint8 n =? 0); repeat constructor.
Qed.

(** A call made with a null handle comes from [writeBytes] or
    [readBytes]. *)
Lemma issued_null_is_payload (o : Op) (self : SfeI2C) :
  Forall (fun c => call_handle c = None -> is_payload_call c = true)
         (issued o self).
Proof.
  destruct o as [h a | | | d n | d n]; simpl.
  - constructor.
  - destruct (_i2cPort self) as [h |]; simpl; repeat constructor.
    simpl. discriminate.
  - destruct (_i2cPort self) as [h |]; simpl; repeat constructor.
    simpl. discriminate.
  - destruct (uint8 n =? 0); repeat constructor.
  - destruct (uint8 n =? 0); repeat constructor.
Qed.

Lemma after_keeps_handle (o : Op) (self : SfeI2C) (h : Handle) :
  _i2cPort self = Some h -> _i2cPort (after o self) = Some h.
Proof.
  intros Hp. destruct o as [h' a | | | d n | d n]; cbn [after]; try exact Hp.
  apply init_keeps_handle. exact Hp.
Qed.

Lemma uint8_range (z : Z) : 0 <= uint8 z < 256.
Proof. unfold uint8. apply Z.mod_pos_bound. lia. Qed.

Lemma after_address_range (o : Op) (self : SfeI2C) :
  0 <= _address self < 256 -> 0 <= _address (after o self) < 256.
Proof.
  intros Ha. destruct o as [h' a | | | d n | d n]; cbn [after]; try exact Ha.
  rewrite init_stores_address. apply uint8_range.
Qed.

(** *** The contract of the class *)

(** C2: after [init hA aA] followed by [init hB aB] the stored address is
    [aB] (the last one wins) and the stored handle is the one the first call
    left, which on an instance with no handle stored is [hA] (the first one
    wins); a later [ping] is then made on [hA] at address [aB]. *)
Theorem init_first_handle_last_address
        (self : SfeI2C) (hA hB : Handle) (aA aB : Z) (st : BusState) :
  0 <= aB < 256 ->
  let s1 := snd (init self hA aA) in
  let s2 := snd (init s1 hB aB) in
  _i2cPort s2 = _i2cPort s1 /\
  _address s2 = aB /\
  (_i2cPort self = None ->
   _i2cPort s1 = Some hA /\
   _i2cPort s2 = Some hA /\
   calls (ping s2) st = [HAL_I2C_IsDeviceReady (Some hA) aB 3 5]).
Proof.
  intros HaB s1 s2.
  assert (Hsame : _i2cPort s2 = _i2cPort s1).
  { destruct (_i2cPort s1) as [h |] eqn:H1.
    - apply init_keeps_handle. exact H1.
    - destruct self as [[h |] a]; discriminate H1. }
  assert (Haddr : _address s2 = aB).
  { subst s2. rewrite init_stores_address. apply uint8_small. exact HaB. }
  split; [exact Hsame | split; [exact Haddr |]].
  intros Hnull.
  assert (H1 : _i2cPort s1 = Some hA)
    by (apply init_stores_first_handle; exact Hnull).
  assert (H2 : _i2cPort s2 = Some hA) by (rewrite Hsame; exact H1).
  repeat split; try assumption.
  unfold calls. rewrite (run_ping_bound s2 hA st H2). cbn [snd].
  rewrite Haddr. reflexivity.
Qed.

(** C3: on a bound instance [available] reads two bytes at register 0xFD;
    when the read completes and delivers [msb; lsb] the result is
    [msb * 256 + lsb], a 16-bit count, and when the read fails the result
    is 0. *)
Theorem available_big_endian
        (self : SfeI2C) (h : Handle) (msb lsb : Z) (st : BusState) :
  _i2cPort self = Some h ->
  0 <= msb < 256 ->
  0 <= lsb < 256 ->
  let c := HAL_I2C_Mem_Read (Some h) (_address self) 0xFD
             I2C_MEMADD_SIZE_8BIT 2 HAL_MAX_DELAY in
  let n := fst (result (available self) st) in
  calls (available self) st = [c] /\
  (reported c st = HAL_OK -> delivered c st = [msb; lsb] ->
   n = msb * 256 + lsb /\ 0 <= n <= 65535) /\
  (reported c st <> HAL_OK -> n = 0).
Proof.
  intros Hp Hm Hl c n. subst n. unfold calls, result, reported, delivered.
  rewrite (run_available_bound self h st Hp). fold c. cbn [fst snd].
  split; [reflexivity | split].
  - intros Hok Hdata. rewrite (not_HAL_OK_false _ Hok), Hdata. cbn [nth].
    rewrite big_endian_pair by assumption. split; lia.
  - intros Hfail. rewrite (not_HAL_OK_true _ Hfail). reflexivity.
Qed.

(** C4: for a length [L] in [1, 255], [writeBytes] returns [L] when the
    transmit completes and 0 when it does not, [readBytes] returns [L] when
    the receive completes and 0 when it does not; neither returns anything
    but 0 or [L]. *)
Theorem writeBytes_readBytes_all_or_nothing
        (self : SfeI2C) (buf : list Z) (L : Z) (st : BusState) :
  1 <= L <= 255 ->
  let tx := HAL_I2C_Master_Transmit (_i2cPort self) (_address self) buf L
              HAL_MAX_DELAY in
  let rx := HAL_I2C_Master_Receive (_i2cPort self) (_address self) buf L
              HAL_MAX_DELAY in
  let w := fst (result (writeBytes self buf L) st) in
  let r := fst (fst (result (readBytes self buf L) st)) in
  (reported tx st = HAL_OK -> w = L) /\
  (reported tx st <> HAL_OK -> w = 0) /\
  (w = 0 \/ w = L) /\
  (reported rx st = HAL_OK -> r = L) /\
  (reported rx st <> HAL_OK -> r = 0) /\
  (r = 0 \/ r = L).
Proof.
  intros HL tx rx w r. subst w r. unfold result, reported.
  rewrite (run_writeBytes_pos self buf L st HL).
  rewrite (run_readBytes_pos self buf L st HL).
  fold tx rx. cbn [fst snd].
  repeat split.
  - intros Hok. rewrite (not_HAL_OK_false _ Hok). reflexivity.
  - intros Hfail. rewrite (not_HAL_OK_true _ Hfail). reflexivity.
  - destruct (not_HAL_OK (fst (hal tx st))); [left | right]; reflexivity.
  - intros Hok. rewrite (not_HAL_OK_false _ Hok). reflexivity.
  - intros Hfail. rewrite (not_HAL_OK_true _ Hfail). reflexivity.
  - destruct (not_HAL_OK (fst (hal rx st))); [left | right]; reflexivity.
Qed.

(** C5: with no handle stored [ping] returns false and makes no call; with
    handle [h] stored it returns true exactly when [HAL_I2C_IsDeviceReady]
    reports [HAL_OK], and false on every other status. *)
Theorem ping_present_iff_acknowledged (self : SfeI2C) (st : BusState) :
  (_i2cPort self = None ->
   fst (result (ping self) st) = false /\ calls (ping self) st = []) /\
  (forall h : Handle, _i2cPort self = Some h ->
   let c := HAL_I2C_IsDeviceReady (Some h) (_address self) 3 5 in
   (fst (result (ping self) st) = true <-> reported c st = HAL_OK) /\
   (reported c st <> HAL_OK -> fst (result (ping self) st) = false)).
Proof.
  split.
  - intros Hp. unfold result, calls. rewrite (run_ping_null self st Hp).
    split; reflexivity.
  - intros h Hp c. unfold result, reported.
    rewrite (run_ping_bound self h st Hp). fold c. cbn [fst snd].
    rewrite not_HAL_OK_status.
    destruct (status (fst (hal c st))); simpl; repeat split;
      intros; try reflexivity; try discriminate; congruence.
Qed.

(** C6: [writeBytes] and [readBytes] with length 0 return 0, make no call
    to the bus service and leave the bus, the buffer and the object as they
    were. *)
Theorem zero_length_makes_no_call
        (self : SfeI2C) (buf : list Z) (st : BusState) :
  run (writeBytes self buf 0) st = ((0, self), st, []) /\
  run (readBytes self buf 0) st = ((0, buf, self), st, []).
Proof.
  split; [apply run_writeBytes_zero | apply run_readBytes_zero].
Qed.

(** C7: once a handle [h] is stored, it is still stored after any sequence
    of [init], [ping], [available], [writeBytes] and [readBytes], whatever
    the bus answers; and a sequence of transfer operations only leaves the
    whole object, address included, as it was. *)
Theorem bound_is_terminal
        (os : list Op) (self : SfeI2C) (h : Handle) (st : BusState) :
  _i2cPort self = Some h ->
  _i2cPort (result (steps os self) st) = Some h /\
  (forallb is_transfer os = true -> result (steps os self) st = self).
Proof.
  revert self st. induction os as [| o os IH]; intros self st Hp.
  - split; [exact Hp | reflexivity].
  - rewrite steps_cons, step_result.
    destruct o as [h' a | | | d n | d n]; simpl forallb.
    + split; [| discriminate].
      apply IH. apply init_keeps_handle. exact Hp.
    + split; [apply IH; exact Hp | intros Hall; apply IH; assumption].
    + split; [apply IH; exact Hp | intros Hall; apply IH; assumption].
    + split; [apply IH; exact Hp | intros Hall; apply IH; assumption].
    + split; [apply IH; exact Hp | intros Hall; apply IH; assumption].
Qed.

(** C10: a freshly constructed instance has a null handle and address 0;
    on it [ping] returns false and [available] returns 0, neither making a
    call to the bus service. *)
Theorem fresh_instance_is_unbound (st : BusState) :
  _i2cPort SfeI2C_new = None /\
  _address SfeI2C_new = 0 /\
  run (ping SfeI2C_new) st = ((false, SfeI2C_new), st, []) /\
  run (available SfeI2C_new) st = ((0, SfeI2C_new), st, []).
Proof. repeat split. Qed.

(** The object a sequence leaves is fixed by the sequence alone. *)
Lemma steps_final (os : list Op) (self : SfeI2C) (st : BusState) :
  result (steps os self) st = fold_left (fun s o => after o s) os self.
Proof.
  revert self st. induction os as [| o os IH]; intros self st.
  - reflexivity.
  - rewrite steps_cons, step_after, IH. reflexivity.
Qed.

Lemma fold_after_closed (os : list Op) (self : SfeI2C) :
  fold_left (fun s o => after o s) os self =
  {| _i2cPort := match _i2cPort self with
                 | Some h => Some h
                 | None => first_init_handle os
                 end;
     _address := last_init_address os (_address self) |}.
Proof.
  revert self. induction os as [| o os IH]; intros [[h |] a].
  - reflexivity.
  - reflexivity.
  - simpl fold_left. rewrite IH.
    destruct o as [h' a' | | | d n | d n]; reflexivity.
  - simpl fold_left. rewrite IH.
    destruct o as [h' a' | | | d n | d n]; reflexivity.
Qed.

(** *** Further properties of sequences of method calls *)

(** X1: a sequence of method calls makes at most one HAL call per transfer
    operation in it, whatever the bus answers: nothing is retried, and
    [init] makes no call. *)
Theorem at_most_one_call_per_transfer
        (os : list Op) (self : SfeI2C) (st : BusState) :
  (length (calls (steps os self) st) <= length (filter is_transfer os))%nat.
Proof.
  rewrite steps_calls. revert self.
  induction os as [| o os IH]; intros self.
  - apply Nat.le_refl.
  - simpl trace. rewrite length_app.
    pose proof (issued_at_most_one o self) as H1.
    pose proof (IH (after o self)) as H2.
    simpl filter. destruct (is_transfer o); simpl length; lia.
Qed.

(** X2: once handle [h] is stored, every HAL call of any later sequence of
    method calls is made on [h], also after further [init] calls with other
    handles. *)
Theorem bound_calls_use_stored_handle
        (os : list Op) (self : SfeI2C) (h : Handle) (st : BusState) :
  _i2cPort self = Some h ->
  Forall (fun c => call_handle c = Some h) (calls (steps os self) st).
Proof.
  rewrite steps_calls. revert self.
  induction os as [| o os IH]; intros self Hp.
  - constructor.
  - simpl trace. apply Forall_app. split.
    + rewrite <- Hp. apply issued_handle.
    + apply IH. apply after_keeps_handle. exact Hp.
Qed.

(** X3: the object left by any sequence of method calls depends on its
    [init] calls only, not on the bus: the handle is the one already stored
    or else that of the first [init], the address is that of the last
    [init], or the old one if there is none. *)
Theorem state_after_sequence
        (os : list Op) (self : SfeI2C) (st : BusState) :
  result (steps os self) st =
  {| _i2cPort := match _i2cPort self with
                 | Some h => Some h
                 | None => first_init_handle os
                 end;
     _address := last_init_address os (_address self) |}.
Proof. rewrite steps_final. apply fold_after_closed. Qed.

(** X4: when the stored address is an 8-bit value, as it is on a fresh
    instance, it is one after any sequence of method calls, and so is the
    device address of every HAL call made on the way. *)
Theorem address_stays_8bit
        (os : list Op) (self : SfeI2C) (st : BusState) :
  0 <= _address self < 256 ->
  0 <= _address (result (steps os self) st) < 256 /\
  Forall (fun c => 0 <= call_address c < 256) (calls (steps os self) st).
Proof.
  rewrite steps_final, steps_calls. revert self.
  induction os as [| o os IH]; intros self Ha.
  - split; [exact Ha | constructor].
  - destruct (IH (after o self) (after_address_range o self Ha))
      as [Hfinal Hcalls].
    split; [exact Hfinal |].
    simpl trace. apply Forall_app. split; [| exact Hcalls].
    eapply Forall_impl; [| apply issued_address].
    intros c Hc. rewrite Hc. exact Ha.
Qed.

(** X5: while no handle is stored, any sequence of [ping] and [available]
    calls makes no HAL call and leaves the bus and the object as they
    were. *)
Theorem unbound_queries_are_silent
        (os : list Op) (self : SfeI2C) (st : BusState) :
  _i2cPort self = None ->
  forallb is_query os = true ->
  run (steps os self) st = (self, st, []).
Proof.
  intros Hp. induction os as [| o os IH]; intros Hq.
  - reflexivity.
  - simpl forallb in Hq. apply andb_prop in Hq. destruct Hq as [Ho Hos].
    simpl steps. rewrite run_bind.
    destruct o as [h a | | | d n | d n]; try discriminate Ho.
    + unfold step. rewrite run_bind, (run_ping_null self st Hp).
      simpl. rewrite (IH Hos). reflexivity.
    + unfold step. rewrite run_bind, (run_available_null self st Hp).
      simpl. rewrite (IH Hos). reflexivity.
Qed.

(** X7: while no handle is stored, [writeBytes] and [readBytes] with a
    length in [1, 255] each make one HAL call, with a null handle, and
    return the length when that call reports [HAL_OK]. *)
Theorem unbound_payload_calls_pass_null
        (self : SfeI2C) (buf : list Z) (L : Z) (st : BusState) :
  _i2cPort self = None ->
  1 <= L <= 255 ->
  let tx := HAL_I2C_Master_Transmit None (_address self) buf L
              HAL_MAX_DELAY in
  let rx := HAL_I2C_Master_Receive None (_address self) buf L
              HAL_MAX_DELAY in
  calls (writeBytes self buf L) st = [tx] /\
  calls (readBytes self buf L) st = [rx] /\
  (reported tx st = HAL_OK -> fst (result (writeBytes self buf L) st) = L) /\
  (reported rx st = HAL_OK ->
   fst (fst (result (readBytes self buf L) st)) = L).
Proof.
  intros Hp HL tx rx. unfold calls, result, reported.
  rewrite (run_writeBytes_pos self buf L st HL).
  rewrite (run_readBytes_pos self buf L st HL).
  rewrite Hp. fold tx rx. cbn [fst snd].
  repeat split.
  - intros Hok. rewrite (not_HAL_OK_false _ Hok). reflexivity.
  - intros Hok. rewrite (not_HAL_OK_false _ Hok). reflexivity.
Qed.

(** X8: in any sequence of method calls on any object, a HAL call made with
    a null handle is a transmit or a receive: [ping] and [available] never
    hand a null handle to the HAL. *)
Theorem null_handle_only_in_payload_calls
        (os : list Op) (self : SfeI2C) (st : BusState) :
  Forall (fun c => call_handle c = None -> is_payload_call c = true)
         (calls (steps os self) st).
Proof.
  rewrite steps_calls. revert self.
  induction os as [| o os IH]; intros self.
  - constructor.
  - simpl trace. apply Forall_app. split.
    + apply issued_null_is_payload.
    + apply IH.
Qed.

(** X9: a result other than the sentinel is only ever produced by a HAL
    call that reported [HAL_OK]: [ping] returns true, and [available] a
    non-zero count, only with a handle stored and a completed call;
    [writeBytes] and [readBytes] return non-zero only after a completed
    transfer, and then return the length as a [uint8_t]. *)
Theorem non_sentinel_result_means_completed
        (self : SfeI2C) (buf : list Z) (n : Z) (st : BusState) :
  (fst (result (ping self) st) = true ->
   exists h, _i2cPort self = Some h /\
     reported (HAL_I2C_IsDeviceReady (Some h) (_address self) 3 5) st
     = HAL_OK) /\
  (fst (result (available self) st) <> 0 ->
   exists h, _i2cPort self = Some h /\
     reported (HAL_I2C_Mem_Read (Some h) (_address self) 0xFD
                 I2C_MEMADD_SIZE_8BIT 2 HAL_MAX_DELAY) st
     = HAL_OK) /\
  (fst (result (writeBytes self buf n) st) <> 0 ->
   reported (HAL_I2C_Master_Transmit (_i2cPort self) (_address self) buf
               (uint8 n) HAL_MAX_DELAY) st = HAL_OK /\
   fst (result (writeBytes self buf n) st) = uint8 n) /\
  (fst (fst (result (readBytes self buf n) st)) <> 0 ->
   reported (HAL_I2C_Master_Receive (_i2cPort self) (_address self) buf
               (uint8 n) HAL_MAX_DELAY) st = HAL_OK /\
   fst (fst (result (readBytes self buf n) st)) = uint8 n).
Proof.
  unfold result, reported. repeat split.
  - destruct (_i2cPort self) as [h |] eqn:Hp.
    + rewrite (run_ping_bound self h st Hp). cbn [fst snd].
      rewrite not_HAL_OK_status. intros Hres. exists h. split; [reflexivity |].
      destruct (status _); [reflexivity | discriminate ..].
    + rewrite (run_ping_null self st Hp). discriminate.
  - destruct (_i2cPort self) as [h |] eqn:Hp.
    + rewrite (run_available_bound self h st Hp). cbn [fst snd].
      rewrite not_HAL_OK_status. intros Hres. exists h. split; [reflexivity |].
      destruct (status _); [reflexivity | contradiction Hres; reflexivity ..].
    + rewrite (run_available_null self st Hp). intros Hres.
      contradiction Hres. reflexivity.
  - revert H. unfold writeBytes.
    destruct (uint8 n =? 0); [intros Hres; contradiction Hres; reflexivity |].
    simpl. destruct (hal _ st) as [r st1]. simpl.
    rewrite not_HAL_OK_status.
    destruct (status r); simpl; intros Hres;
      [reflexivity | contradiction Hres; reflexivity ..].
  - revert H. unfold writeBytes.
    destruct (uint8 n =? 0); [intros Hres; contradiction Hres; reflexivity |].
    simpl. destruct (hal _ st) as [r st1]. simpl.
    rewrite not_HAL_OK_status.
    destruct (status r); simpl; intros Hres;
      [reflexivity | contradiction Hres; reflexivity ..].
  - revert H. unfold readBytes.
    destruct (uint8 n =? 0); [intros Hres; contradiction Hres; reflexivity |].
    simpl. destruct (hal _ st) as [r st1]. simpl.
    rewrite not_HAL_OK_status.
    destruct (status r); simpl; intros Hres;
      [reflexivity | contradiction Hres; reflexivity ..].
  - revert H. unfold readBytes.
    destruct (uint8 n =? 0); [intros Hres; contradiction Hres; reflexivity |].
    simpl. destruct (hal _ st) as [r st1]. simpl.
    rewrite not_HAL_OK_status.
    destruct (status r); simpl; intros Hres;
      [reflexivity | contradiction Hres; reflexivity ..].
Qed.

End Run.

(** C8: [init] is idempotent: a second call with the same handle and
    address returns the same flag and leaves the same object as the first,
    and so does any number of further calls. *)
Theorem init_idempotent (self : SfeI2C) (h : Handle) (a : Z) (n : nat) :
  init (snd (init self h a)) h a = init self h a /\
  Nat.iter (S n) (fun s => snd (init s h a)) self = snd (init self h a).
Proof.
  assert (Hidem : forall s, init (snd (init s h a)) h a = init s h a).
  { intros [[p |] a0]; reflexivity. }
  split; [apply Hidem |].
  induction n as [| n IH].
  - reflexivity.
  - change (Nat.iter (S (S n)) (fun s => snd (init s h a)) self)
      with (snd (init (Nat.iter (S n) (fun s => snd (init s h a)) self) h a)).
    rewrite IH, Hidem. reflexivity.
Qed.

(** C9: [init] returns true for every handle and every 8-bit address,
    whether or not a handle was already stored, and stores the address as
    given, also when it lies outside the 7-bit range. *)
Theorem init_always_succeeds (self : SfeI2C) (h : Handle) (a : Z) :
  0 <= a < 256 ->
  fst (init self h a) = true /\ _address (snd (init self h a)) = a.
Proof.
  intros Ha. split; [reflexivity |].
  rewrite init_stores_address. apply uint8_small. exact Ha.
Qed.

(** X6: the HAL calls a sequence of method calls makes, and the object it
    leaves, are the same over any two bus services: the class never changes
    what it asks of the bus because of an earlier answer. *)
Theorem calls_independent_of_bus
        {BusState1 BusState2 : Type}
        (hal1 : HAL_call -> BusState1 -> HAL_reply * BusState1)
        (hal2 : HAL_call -> BusState2 -> HAL_reply * BusState2)
        (os : list Op) (self : SfeI2C) (st1 : BusState1) (st2 : BusState2) :
  calls hal1 (steps os self) st1 = calls hal2 (steps os self) st2 /\
  result hal1 (steps os self) st1 = result hal2 (steps os self) st2.
Proof.
  rewrite !steps_calls, !steps_final. split; reflexivity.
Qed.

End Transport.

Arguments Ret {Handle A} a.
Arguments Call {Handle A} c k.

(** C1: [writeBytes] and [readBytes] have no null test.  On a freshly
    constructed instance, with nothing ever bound, a request for one byte
    reaches the bus service with a null handle, and when the service reports
    [HAL_OK] the call returns 1, not 0. *)
Theorem unbound_write_read_reach_the_bus (Handle : Type) (HAL_MAX_DELAY : Z) :
  run (bus_fixed HAL_OK [0xB5])
      (writeBytes HAL_MAX_DELAY (@SfeI2C_new Handle) [0xB5] 1) 0%nat
  = ((1, SfeI2C_new), 1%nat,
     [HAL_I2C_Master_Transmit None 0 [0xB5] 1 HAL_MAX_DELAY]) /\
  run (bus_fixed HAL_OK [0xB5])
      (readBytes HAL_MAX_DELAY (@SfeI2C_new Handle) [0x00] 1) 0%nat
  = ((1, [0xB5], SfeI2C_new), 1%nat,
     [HAL_I2C_Master_Receive None 0 [0x00] 1 HAL_MAX_DELAY]).
Proof. split; reflexivity. Qed.

(** ** The contract at concrete inputs *)

(** [init] with handle 1 and address 0x42, then with handle 2 and address
    0x43, on a fresh instance. *)
Lemma init_first_handle_last_address_witness :
  (0 <= 0x43 < 256 /\ _i2cPort (@SfeI2C_new nat) = None) /\
  let s2 := snd (init (snd (init SfeI2C_new 1%nat 0x42)) 2%nat 0x43) in
  _i2cPort s2 = Some 1%nat /\
  _address s2 = 0x43 /\
  calls (bus_fixed HAL_OK []) (ping s2) 0%nat
  = [HAL_I2C_IsDeviceReady (Some 1%nat) 0x43 3 5].
Proof.
  split; [split; [lia | reflexivity] |].
  destruct (@init_first_handle_last_address nat nat (bus_fixed HAL_OK [])
              SfeI2C_new 1%nat 2%nat 0x42 0x43 0%nat ltac:(lia))
    as [_ [Haddr Hfresh]].
  destruct (Hfresh eq_refl) as [_ [Hport Hping]].
  split; [exact Hport | split; [exact Haddr | exact Hping]].
Defined.

(** The register pair (0x01, 0x02) reads as 258. *)
Lemma available_big_endian_witness :
  (0 <= 0x01 < 256 /\ 0 <= 0x02 < 256) /\
  fst (result (bus_fixed HAL_OK [0x01; 0x02])
         (available 1 0xFFFFFFFF {| _i2cPort := Some 7%nat; _address := 0x42 |})
         0%nat) = 258.
Proof.
  split; [lia |].
  apply (@available_big_endian nat 1 0xFFFFFFFF nat
           (bus_fixed HAL_OK [0x01; 0x02])
           {| _i2cPort := Some 7%nat; _address := 0x42 |} 7%nat 0x01 0x02
           0%nat);
    [reflexivity | lia | lia | reflexivity | reflexivity].
Defined.

(** Eight bytes written over a bus that completes the transfer, and over
    one that times out. *)
Lemma writeBytes_readBytes_all_or_nothing_witness :
  1 <= 8 <= 255 /\
  fst (result (bus_echo HAL_OK)
         (writeBytes 0xFFFFFFFF
            {| _i2cPort := Some 7%nat; _address := 0x42 |}
            [0xB5; 0x62; 0x06; 0x8A; 0x00; 0x00; 0x90; 0xBE] 8) 0%nat) = 8 /\
  fst (result (bus_echo HAL_TIMEOUT)
         (writeBytes 0xFFFFFFFF
            {| _i2cPort := Some 7%nat; _address := 0x42 |}
            [0xB5; 0x62; 0x06; 0x8A; 0x00; 0x00; 0x90; 0xBE] 8) 0%nat) = 0.
Proof.
  split; [lia | split].
  - apply (@writeBytes_readBytes_all_or_nothing nat 0xFFFFFFFF nat
             (bus_echo HAL_OK)
             {| _i2cPort := Some 7%nat; _address := 0x42 |}
             [0xB5; 0x62; 0x06; 0x8A; 0x00; 0x00; 0x90; 0xBE] 8 0%nat);
      [lia | reflexivity].
  - apply (@writeBytes_readBytes_all_or_nothing nat 0xFFFFFFFF nat
             (bus_echo HAL_TIMEOUT)
             {| _i2cPort := Some 7%nat; _address := 0x42 |}
             [0xB5; 0x62; 0x06; 0x8A; 0x00; 0x00; 0x90; 0xBE] 8 0%nat);
      [lia | discriminate].
Defined.

(** [ping] on a fresh instance, and on a bound one whose device
    acknowledges. *)
Lemma ping_present_iff_acknowledged_witness :
  (_i2cPort (@SfeI2C_new nat) = None /\
   fst (result (bus_fixed HAL_OK []) (ping (@SfeI2C_new nat)) 0%nat) = false) /\
  (_i2cPort {| _i2cPort := Some 7%nat; _address := 0x42 |} = Some 7%nat /\
   fst (result (bus_fixed HAL_OK [])
          (ping {| _i2cPort := Some 7%nat; _address := 0x42 |}) 0%nat) = true).
Proof.
  split; (split; [reflexivity |]).
  - exact (proj1 (proj1 (@ping_present_iff_acknowledged nat nat
                           (bus_fixed HAL_OK []) SfeI2C_new 0%nat)
                    eq_refl)).
  - apply (proj1 (proj2 (@ping_present_iff_acknowledged nat nat
                           (bus_fixed HAL_OK [])
                           {| _i2cPort := Some 7%nat; _address := 0x42 |}
                           0%nat)
                    7%nat eq_refl)).
    reflexivity.
Defined.

(** A bound instance taken through every operation, over a bus that always
    times out, and through transfer operations only. *)
Lemma bound_is_terminal_witness :
  (_i2cPort {| _i2cPort := Some 7%nat; _address := 0x42 |} = Some 7%nat /\
   forallb (@is_transfer nat)
     [OpPing; OpWriteBytes [0xB5] 1; OpAvailable; OpReadBytes [] 2] = true) /\
  _i2cPort
    (result (bus_fixed HAL_TIMEOUT [])
       (steps 1 0xFFFFFFFF
          [OpPing; OpInit 9%nat 0x43; OpWriteBytes [0xB5] 1; OpAvailable;
           OpReadBytes [] 2]
          {| _i2cPort := Some 7%nat; _address := 0x42 |}) 0%nat)
  = Some 7%nat /\
  result (bus_fixed HAL_OK [0x00; 0x0C])
    (steps 1 0xFFFFFFFF
       [OpPing; OpWriteBytes [0xB5] 1; OpAvailable; OpReadBytes [] 2]
       {| _i2cPort := Some 7%nat; _address := 0x42 |}) 0%nat
  = {| _i2cPort := Some 7%nat; _address := 0x42 |}.
Proof.
  split; [split; reflexivity | split].
  - apply (@bound_is_terminal nat 1 0xFFFFFFFF nat (bus_fixed HAL_TIMEOUT [])
             [OpPing; OpInit 9%nat 0x43; OpWriteBytes [0xB5] 1; OpAvailable;
              OpReadBytes [] 2]
             {| _i2cPort := Some 7%nat; _address := 0x42 |} 7%nat 0%nat
             eq_refl).
  - apply (@bound_is_terminal nat 1 0xFFFFFFFF nat
             (bus_fixed HAL_OK [0x00; 0x0C])
             [OpPing; OpWriteBytes [0xB5] 1; OpAvailable; OpReadBytes [] 2]
             {| _i2cPort := Some 7%nat; _address := 0x42 |} 7%nat 0%nat
             eq_refl).
    reflexivity.
Defined.

(** [init] with address 200, outside the 7-bit range, on an instance that
    already has a handle. *)
Lemma init_always_succeeds_witness :
  0 <= 200 < 256 /\
  fst (init {| _i2cPort := Some 7%nat; _address := 0x42 |} 9%nat 200) = true /\
  _address (snd (init {| _i2cPort := Some 7%nat; _address := 0x42 |}
                   9%nat 200)) = 200.
Proof.
  split; [lia |].
  apply (@init_always_succeeds nat
           {| _i2cPort := Some 7%nat; _address := 0x42 |} 9%nat 200).
  lia.
Defined.

(** A bound instance rebound with another handle, probed and written to:
    every call is on the first handle. *)
Lemma bound_calls_use_stored_handle_witness :
  _i2cPort {| _i2cPort := Some 7%nat; _address := 0x42 |} = Some 7%nat /\
  Forall (fun c => call_handle c = Some 7%nat)
    (calls (bus_fixed HAL_OK [])
       (steps 1 0xFFFFFFFF [OpInit 9%nat 0x43; OpPing; OpWriteBytes [0xB5] 1]
          {| _i2cPort := Some 7%nat; _address := 0x42 |}) 0%nat).
Proof.
  split; [reflexivity |].
  apply (@bound_calls_use_stored_handle nat 1 0xFFFFFFFF nat
           (bus_fixed HAL_OK [])
           [OpInit 9%nat 0x43; OpPing; OpWriteBytes [0xB5] 1]
           {| _i2cPort := Some 7%nat; _address := 0x42 |} 7%nat 0%nat).
  reflexivity.
Defined.

(** A fresh instance bound at address 0x42 and probed. *)
Lemma address_stays_8bit_witness :
  0 <= _address (@SfeI2C_new nat) < 256 /\
  0 <= _address
         (result (bus_fixed HAL_OK [])
            (steps 1 0xFFFFFFFF [OpInit 7%nat 0x42; OpPing] SfeI2C_new)
            0%nat) < 256 /\
  Forall (fun c => 0 <= call_address c < 256)
    (calls (bus_fixed HAL_OK [])
       (steps 1 0xFFFFFFFF [OpInit 7%nat 0x42; OpPing] (@SfeI2C_new nat))
       0%nat).
Proof.
  split; [simpl; lia |].
  apply (@address_stays_8bit nat 1 0xFFFFFFFF nat (bus_fixed HAL_OK [])
           [OpInit 7%nat 0x42; OpPing] SfeI2C_new 0%nat).
  simpl; lia.
Defined.

(** Three queries on a fresh instance. *)
Lemma unbound_queries_are_silent_witness :
  (_i2cPort (@SfeI2C_new nat) = None /\
   forallb (@is_query nat) [OpPing; OpAvailable; OpPing] = true) /\
  run (bus_fixed HAL_OK [0x00; 0x0C])
    (steps 1 0xFFFFFFFF [OpPing; OpAvailable; OpPing] (@SfeI2C_new nat))
    0%nat
  = (SfeI2C_new, 0%nat, []).
Proof.
  split; [split; reflexivity |].
  apply (@unbound_queries_are_silent nat 1 0xFFFFFFFF nat
           (bus_fixed HAL_OK [0x00; 0x0C])
           [OpPing; OpAvailable; OpPing] SfeI2C_new 0%nat);
    reflexivity.
Defined.

(** One byte written on a fresh instance. *)
Lemma unbound_payload_calls_pass_null_witness :
  (_i2cPort (@SfeI2C_new nat) = None /\ 1 <= 1 <= 255) /\
  calls (bus_fixed HAL_OK [])
    (writeBytes 0xFFFFFFFF (@SfeI2C_new nat) [0xB5] 1) 0%nat
  = [HAL_I2C_Master_Transmit None 0 [0xB5] 1 0xFFFFFFFF].
Proof.
  split; [split; [reflexivity | lia] |].
  apply (@unbound_payload_calls_pass_null nat 0xFFFFFFFF nat
           (bus_fixed HAL_OK []) SfeI2C_new [0xB5] 1 0%nat);
    [reflexivity | lia].
Defined.

(** A bound instance over a bus that completes every call. *)
Lemma non_sentinel_result_means_completed_witness :
  (fst (result (bus_fixed HAL_OK [0x00; 0x0C])
          (ping {| _i2cPort := Some 7%nat; _address := 0x42 |}) 0%nat)
   = true /\
   fst (result (bus_fixed HAL_OK [0x00; 0x0C])
          (writeBytes 0xFFFFFFFF
             {| _i2cPort := Some 7%nat; _address := 0x42 |} [0xB5; 0x62] 2)
          0%nat) <> 0) /\
  (exists h : nat,
     _i2cPort {| _i2cPort := Some 7%nat; _address := 0x42 |} = Some h /\
     reported (bus_fixed HAL_OK [0x00; 0x0C])
       (HAL_I2C_IsDeviceReady (Some h) 0x42 3 5) 0%nat = HAL_OK) /\
  fst (result (bus_fixed HAL_OK [0x00; 0x0C])
         (writeBytes 0xFFFFFFFF
            {| _i2cPort := Some 7%nat; _address := 0x42 |} [0xB5; 0x62] 2)
         0%nat) = 2.
Proof.
  destruct (@non_sentinel_result_means_completed nat 1 0xFFFFFFFF nat
              (bus_fixed HAL_OK [0x00; 0x0C])
              {| _i2cPort := Some 7%nat; _address := 0x42 |}
              [0xB5; 0x62] 2 0%nat)
    as [Hping [_ [Hwrite _]]].
  split; [split; [reflexivity | discriminate] | split].
  - apply Hping. reflexivity.
  - apply Hwrite. discriminate.
Defined.

End SparkFun_UBLOX_GNSS.
